(** * The reflection runner of src/lib/reflection/reflect.ts

    [reflect] loads the user's application either on the main thread
    (to list the plugins it uses) or in a forked subprocess (to generate
    the typegen artifacts) and answers with a tagged result.

    The embedding is state passing.  Every call that leaves the module
    ([log.trace], [fork], the stage setters, [appRunner.start]) is
    appended to a journal, and the promise built by
    [runTypegenReflectionAsSubProcess] is a cell that the four listeners
    registered on the child process try to resolve, in the order in which
    node delivers the child's events. *)

From stdpp Require Import gmap strings list pretty.

(** ** Values shared with the rest of the framework *)

(** A JavaScript [Error]: its [name] and its [message]. *)
Record Error := mkError { error_name : string; error_message : string }.

(** [new Error(message)] *)
Definition new_Error (message : string) : Error := mkError "Error" message.

(** The argument of the stage helpers of [./stage]: ['plugin'] or ['typegen']. *)
Inductive ReflectionStage := StagePlugin | StageTypegen.

(** The [stdio] option handed to [fork]. *)
Inductive Stdio := Inherit | Pipe.

(** The options object handed to [fork]. *)
Record ForkOptions := {
  cwd : string;
  stdio : Stdio;
  env : gmap string string
}.

(** JavaScript truthiness of [process.env.X]: unset and the empty string are falsy. *)
Definition truthy (v : option string) : bool :=
  match v with
  | Some s => negb (String.eqb s "")
  | None => false
  end.

(** Object spread [{ ...a, ...b }]: the keys of [b] win. *)
Definition spread (a b : gmap string string) : gmap string string := b ∪ a.

(** A promise: still pending, or settled for good. *)
Inductive Promise (A : Type) :=
| Pending
| Fulfilled (value : A)
| Rejected (reason : Error).
Arguments Pending {A}.
Arguments Fulfilled {A} value.
Arguments Rejected {A} reason.

Definition double_quote : string := String (Ascii.ascii_of_nat 34) EmptyString.
Definition newline : string := String (Ascii.ascii_of_nat 10) EmptyString.

(** [String(code)] for the first argument of the ['exit'] event,
    a number or [null]. *)
Definition show_code (code : option Z) : string :=
  match code with
  | Some n => pretty n
  | None => "null"
  end.

(** The template literal of the ['exit'] listener, line breaks and
    indentation included. *)
Definition exit_message (code : option Z) : string :=
  newline +:+ "        Runner failed with exit code " +:+ double_quote
    +:+ show_code code +:+ double_quote +:+ "." +:+ newline +:+ "      ".

(** ** Stand-ins for the imported helpers, used to run the model
    on concrete inputs *)

Definition sample_deserializeError (serialized : string) : Error :=
  mkError "Error" serialized.

Definition sample_stage_env (stage : ReflectionStage) : gmap string string :=
  {[ "NEXUS_REFLECTION" := match stage with
                           | StagePlugin => "plugin"
                           | StageTypegen => "typegen"
                           end ]}.

Definition sample_join (dir file : string) : string := dir +:+ "/" +:+ file.

Section Reflection.

(** What reflect.ts imports and this development does not look into:
    the values these calls return.  That a call may throw instead is
    added in the part on the calls that throw, below. *)
Variables (Plugin ErrorObject LayoutData : Type).
Variable deserializeError : ErrorObject -> Error.
Variable JSON_stringify : LayoutData -> string.
Variable getReflectionStageEnv : ReflectionStage -> gmap string string.
Variable Path_join : string -> string -> string.
Variable __dirname : string.

(** [Layout.Layout], as far as reflect.ts reads it. *)
Record Layout := { projectRoot : string; data : LayoutData }.

(** The messages a reflection subprocess sends to its parent. *)
Inductive Message :=
| SuccessPlugin (plugins : list Plugin)
| SuccessTypegen
| ErrorMessage (serializedError : ErrorObject).

(** The [type] field of a message. *)
Definition message_type (m : Message) : string :=
  match m with
  | SuccessPlugin _ => "success-plugin"
  | SuccessTypegen => "success-typegen"
  | ErrorMessage _ => "error"
  end.

(** [ReflectionResultPlugins | ReflectionResultArtifactGeneration] *)
Inductive ReflectionResult :=
| Failure (error : Error)
| SuccessWithPlugins (plugins : list Plugin)
| Success.

(** The [success] tag of a result. *)
Definition success (r : ReflectionResult) : bool :=
  match r with
  | Failure _ => false
  | SuccessWithPlugins _ | Success => true
  end.

(** The options of [reflect]'s implementation signature:
    [usedPlugins?: true], [artifacts?: true], [onMainThread?: boolean].
    A field of type [true | undefined] is a [bool], [false] when absent. *)
Record Opts := {
  usedPlugins : bool;
  artifacts : bool;
  onMainThread : option bool
}.

(** The second argument of [log.trace]. *)
Inductive LogContext :=
| NoContext
| ErrContext (err : Error)
| DataContext (err : string)
| CodeContext (code : option Z).

(** The calls that leave the module. *)
Inductive Effect :=
| LogTrace (event : string) (context : LogContext)
| Fork (modulePath : string) (args : list string) (options : ForkOptions)
| SetReflectionStage (stage : ReflectionStage)
| RemoveReflectionStage
| AppRunnerStart.

(** The application object, as far as reflect.ts reads it:
    [app.private.state.plugins]. *)
Record PrivateApp := { private_state_plugins : list Plugin }.

(** How [await appRunner.start()] ends: the promise is fulfilled (and
    the application's state is what the start-up left), it is rejected,
    or it never settles. *)
Inductive StartOutcome :=
| Started (app : PrivateApp)
| Threw (error : Error)
| NeverSettles.

Record AppRunner := { start : StartOutcome }.
Record RunnerOptions := { catchUnhandledErrors : bool }.

Variable createDevAppRunner : Layout -> PrivateApp -> RunnerOptions -> AppRunner.
(** [require('../../').default] *)
Variable app_default : PrivateApp.

(** What the listeners on the child process receive: an IPC message,
    the ['error'] event, a chunk of the child's stderr, the ['exit']
    event with its code. *)
Inductive ChildEvent :=
| OnMessage (message : Message)
| OnError (err : Error)
| OnStderrData (err : string)
| OnExit (code : option Z).

(** What lies outside the program at a call of [reflect]:
    [process.env] and what the forked child will do. *)
Record World := {
  process_env : gmap string string;
  child_events : list ChildEvent
}.

(** The state threaded through the code: the promise that is being
    returned and the journal of calls made so far. *)
Record Run := { promise : Promise ReflectionResult; journal : list Effect }.

Definition log_trace (event : string) (context : LogContext) (s : Run) : Run :=
  {| promise := promise s; journal := journal s ++ [LogTrace event context] |}.

(** [resolve(r)]: settles a pending promise, does nothing to a settled one. *)
Definition resolve (r : ReflectionResult) (s : Run) : Run :=
  match promise s with
  | Pending => {| promise := Fulfilled r; journal := journal s |}
  | _ => s
  end.

(** [cp.on('message', ...)] *)
Definition on_message (message : Message) (s : Run) : Run :=
  let s :=
    match message with
    | SuccessTypegen => resolve Success s
    | _ => s
    end in
  match message with
  | ErrorMessage serializedError => resolve (Failure (deserializeError serializedError)) s
  | _ => s
  end.

(** [cp.on('error', ...)] *)
Definition on_error (err : Error) (s : Run) : Run :=
  resolve (Failure err) (log_trace "error" (ErrContext err) s).

(** [cp.stderr?.on('data', ...)] *)
Definition on_stderr_data (err : string) (s : Run) : Run :=
  resolve (Failure (new_Error err)) (log_trace "error" (DataContext err) s).

(** [cp.on('exit', ...)] *)
Definition on_exit (code : option Z) (s : Run) : Run :=
  if decide (code = Some 0%Z) then s
  else resolve (Failure (new_Error (exit_message code)))
         (log_trace "failed with exit code !== 0" (CodeContext code) s).

(** One event of the child, handed to the listener registered for it.
    With [stdio: 'inherit'] the child has no [stderr] stream in the
    parent, [cp.stderr?.on] registers nothing and the chunk is not seen. *)
Definition dispatch (io : Stdio) (s : Run) (ev : ChildEvent) : Run :=
  match ev with
  | OnMessage m => on_message m s
  | OnError err => on_error err s
  | OnStderrData chunk =>
      match io with
      | Pipe => on_stderr_data chunk s
      | Inherit => s
      end
  | OnExit code => on_exit code s
  end.

Definition deliver (io : Stdio) (events : list ChildEvent) (s : Run) : Run :=
  foldl (dispatch io) s events.

(** The third argument of [fork]. *)
Definition fork_options (penv : gmap string string) (layout : Layout) : ForkOptions :=
  {| cwd := projectRoot layout;
     stdio := if truthy (penv !! "DEBUG") then Inherit else Pipe;
     env := spread (<["NEXUS_REFLECTION_LAYOUT" := JSON_stringify (data layout)]> penv)
                   (getReflectionStageEnv StageTypegen) |}.

(** The function when the calls of the promise executor return (the
    calls that throw are in [runTypegenReflectionAsSubProcess_or_throw]). *)
Definition runTypegenReflectionAsSubProcess
    (penv : gmap string string) (child : list ChildEvent)
    (layout : Layout) (j : list Effect) : Run :=
  let options := fork_options penv layout in
  let cp := Fork (Path_join __dirname "fork-script.js") [] options in
  deliver (stdio options) child {| promise := Pending; journal := j ++ [cp] |}.

(** The function when its calls other than [appRunner.start()] return
    (the calls that throw are in [runPluginsReflectionOnMainThread_or_throw]). *)
Definition runPluginsReflectionOnMainThread (layout : Layout) (j : list Effect) : Run :=
  let app := app_default in
  let appRunner := createDevAppRunner layout app {| catchUnhandledErrors := false |} in
  let j := j ++ [SetReflectionStage StagePlugin] in
  let j := j ++ [AppRunnerStart] in
  match start appRunner with
  | Started app =>
      let j := j ++ [RemoveReflectionStage] in
      {| promise := Fulfilled (SuccessWithPlugins (private_state_plugins app)); journal := j |}
  | Threw error => {| promise := Fulfilled (Failure error); journal := j |}
  | NeverSettles => {| promise := Pending; journal := j |}
  end.

Definition not_implemented : string :=
  "Not implemented. Reflection on plugins needs to be done on the main process for now.".

(** The function when the calls on its way return (the calls that
    throw are in [reflect_or_throw]). *)
Definition reflect (w : World) (layout : Layout) (opts : Opts) (j : list Effect) : Run :=
  let j := j ++ [LogTrace "reflection started" NoContext] in
  if artifacts opts then
    runTypegenReflectionAsSubProcess (process_env w) (child_events w) layout j
  else if usedPlugins opts && bool_decide (onMainThread opts = Some false) then
    {| promise := Rejected (new_Error not_implemented); journal := j |}
  else runPluginsReflectionOnMainThread layout j.

(** ** Reading a run *)

(** The reflection stage after a journal: the last stage set and
    not removed since. *)
Definition stage_step (st : option ReflectionStage) (e : Effect) : option ReflectionStage :=
  match e with
  | SetReflectionStage stage => Some stage
  | RemoveReflectionStage => None
  | _ => st
  end.

Definition reflection_stage (j : list Effect) : option ReflectionStage :=
  foldl stage_step None j.

Definition is_log_trace (e : Effect) : bool :=
  match e with LogTrace _ _ => true | _ => false end.

Definition is_fork (e : Effect) : bool :=
  match e with Fork _ _ _ => true | _ => false end.

(** The parts of a child's history. *)
Definition messages_of (events : list ChildEvent) : list Message :=
  omap (fun ev => match ev with OnMessage m => Some m | _ => None end) events.

Definition spawn_errors_of (events : list ChildEvent) : list Error :=
  omap (fun ev => match ev with OnError e => Some e | _ => None end) events.

Definition stderr_of (events : list ChildEvent) : list string :=
  omap (fun ev => match ev with OnStderrData d => Some d | _ => None end) events.

Definition exit_codes_of (events : list ChildEvent) : list (option Z) :=
  omap (fun ev => match ev with OnExit c => Some c | _ => None end) events.

(** Whether the listener for an event calls [resolve]: every event
    does but a [success-plugin] message, an exit with code 0 and a chunk
    on a stderr that is not piped. *)
Definition settles (io : Stdio) (ev : ChildEvent) : bool :=
  match ev with
  | OnMessage (SuccessPlugin _) => false
  | OnMessage _ => true
  | OnError _ => true
  | OnStderrData _ =>
      match io with
      | Pipe => true
      | Inherit => false
      end
  | OnExit code => negb (bool_decide (code = Some 0%Z))
  end.

(** A settled-or-pending promise that was not rejected: it is pending or
    holds one of the tagged results. *)
Definition tagged_or_pending (p : Promise ReflectionResult) : Prop :=
  p = Pending \/
  exists r, p = Fulfilled r /\
    ((success r = false /\ exists error, r = Failure error) \/
     (success r = true /\ (r = Success \/ exists plugins, r = SuccessWithPlugins plugins))).

(** The one option value that [reflect] refuses. *)
Definition refused (opts : Opts) : bool :=
  negb (artifacts opts) && usedPlugins opts && bool_decide (onMainThread opts = Some false).

(** What the listener for an event hands to [resolve], when it calls it. *)
Definition answer (io : Stdio) (ev : ChildEvent) : option ReflectionResult :=
  match ev with
  | OnMessage (SuccessPlugin _) => None
  | OnMessage SuccessTypegen => Some Success
  | OnMessage (ErrorMessage serializedError) =>
      Some (Failure (deserializeError serializedError))
  | OnError err => Some (Failure err)
  | OnStderrData chunk =>
      match io with
      | Pipe => Some (Failure (new_Error chunk))
      | Inherit => None
      end
  | OnExit code =>
      if decide (code = Some 0%Z) then None
      else Some (Failure (new_Error (exit_message code)))
  end.

(** The line the listener for an event hands to [log.trace], when it
    writes one. *)
Definition traced (io : Stdio) (ev : ChildEvent) : option Effect :=
  match ev with
  | OnMessage _ => None
  | OnError err => Some (LogTrace "error" (ErrContext err))
  | OnStderrData chunk =>
      match io with
      | Pipe => Some (LogTrace "error" (DataContext chunk))
      | Inherit => None
      end
  | OnExit code =>
      if decide (code = Some 0%Z) then None
      else Some (LogTrace "failed with exit code !== 0" (CodeContext code))
  end.

(** ** Calls that throw

    The calls that reflect.ts makes outside its listeners.  All but
    [removeReflectionStage] stand outside the [try] of the main-thread
    run, in the body of an [async] function or of a promise executor,
    where a throw rejects the promise that the function returns.  (A throw
    inside a listener never reaches the promise: it is raised in the event
    emitter, and is not part of this development.) *)
Inductive CallSite :=
| CallLogTrace               (* log.trace('reflection started') *)
| CallPathJoin               (* Path.join(__dirname, 'fork-script.js') *)
| CallJSONStringify          (* JSON.stringify(layout.data) *)
| CallGetReflectionStageEnv  (* getReflectionStageEnv('typegen') *)
| CallFork                   (* fork(...) *)
| CallRequire                (* require('../../') *)
| CallCreateDevAppRunner     (* createDevAppRunner(layout, app, ...) *)
| CallSetReflectionStage     (* setReflectionStage('plugin') *)
| CallRemoveReflectionStage. (* removeReflectionStage() *)

(** One call: when it throws, the promise of the enclosing function is
    rejected with what was thrown and nothing more is done; when it
    returns, the function goes on with [k].  [x] tells which calls throw
    in this run, and what.  The journal holds the calls that returned. *)
Definition attempt (x : CallSite -> option Error) (site : CallSite)
    (j : list Effect) (k : Run) : Run :=
  match x site with
  | Some thrown => {| promise := Rejected thrown; journal := j |}
  | None => k
  end.

(** [runTypegenReflectionAsSubProcess], its executor able to throw: the
    arguments of [fork] are evaluated from left to right, then [fork] is
    called, then the listeners are registered. *)
Definition runTypegenReflectionAsSubProcess_or_throw (x : CallSite -> option Error)
    (penv : gmap string string) (child : list ChildEvent)
    (layout : Layout) (j : list Effect) : Run :=
  attempt x CallPathJoin j
    (attempt x CallJSONStringify j
       (attempt x CallGetReflectionStageEnv j
          (attempt x CallFork j
             (runTypegenReflectionAsSubProcess penv child layout j)))).

(** [runPluginsReflectionOnMainThread], its calls able to throw: three
    calls before the [try], and inside it, after a start-up that went
    well, [removeReflectionStage], whose throw is caught and returned. *)
Definition runPluginsReflectionOnMainThread_or_throw (x : CallSite -> option Error)
    (layout : Layout) (j : list Effect) : Run :=
  attempt x CallRequire j
    (attempt x CallCreateDevAppRunner j
       (attempt x CallSetReflectionStage j
          (match start (createDevAppRunner layout app_default
                          {| catchUnhandledErrors := false |}),
                 x CallRemoveReflectionStage with
           | Started _, Some error =>
               {| promise := Fulfilled (Failure error);
                  journal := j ++ [SetReflectionStage StagePlugin; AppRunnerStart] |}
           | _, _ => runPluginsReflectionOnMainThread layout j
           end))).

(** [reflect], the calls on its way able to throw. *)
Definition reflect_or_throw (x : CallSite -> option Error)
    (w : World) (layout : Layout) (opts : Opts) (j : list Effect) : Run :=
  attempt x CallLogTrace j
    (let j := j ++ [LogTrace "reflection started" NoContext] in
     if artifacts opts then
       runTypegenReflectionAsSubProcess_or_throw x
         (process_env w) (child_events w) layout j
     else if usedPlugins opts && bool_decide (onMainThread opts = Some false) then
       {| promise := Rejected (new_Error not_implemented); journal := j |}
     else runPluginsReflectionOnMainThread_or_throw x layout j).

(** The first of a sequence of calls that throws, if one does. *)
Definition first_throw (x : CallSite -> option Error) (sites : list CallSite)
    : option Error :=
  head (omap x sites).

(** The calls of the promise executor, in the order in which they are made. *)
Definition executor_calls : list CallSite :=
  [CallPathJoin; CallJSONStringify; CallGetReflectionStageEnv; CallFork].

(** The calls that [reflect] makes outside any [try], for given
    options, in the order in which they are made. *)
Definition unguarded_calls (opts : Opts) : list CallSite :=
  CallLogTrace ::
  (if artifacts opts then executor_calls
   else if usedPlugins opts && bool_decide (onMainThread opts = Some false) then []
   else [CallRequire; CallCreateDevAppRunner; CallSetReflectionStage]).

(** ** How the promise evolves *)

Lemma promise_log_trace event context s :
  promise (log_trace event context s) = promise s.
Proof. reflexivity. Qed.

Lemma resolve_pending r s :
  promise s = Pending -> promise (resolve r s) = Fulfilled r.
Proof. intros Hs. unfold resolve. rewrite Hs. reflexivity. Qed.

Lemma resolve_settled r s :
  promise s <> Pending -> resolve r s = s.
Proof. intros Hs. unfold resolve. destruct (promise s); congruence. Qed.

Lemma resolve_journal r s : journal (resolve r s) = journal s.
Proof. unfold resolve. destruct (promise s); reflexivity. Qed.

(** A settled promise is out of the listeners' reach. *)
Lemma dispatch_settled io s ev :
  promise s <> Pending -> promise (dispatch io s ev) = promise s.
Proof.
  intros Hs.
  destruct ev as [m | err | chunk | code]; simpl.
  - destruct m; simpl; rewrite ?resolve_settled; auto.
  - unfold on_error. rewrite resolve_settled; auto.
  - destruct io; auto. unfold on_stderr_data. rewrite resolve_settled; auto.
  - unfold on_exit. case_decide; auto. rewrite resolve_settled; auto.
Qed.

Lemma deliver_settled io events : forall s,
  promise s <> Pending -> promise (deliver io events s) = promise s.
Proof.
  induction events as [| ev events IH]; intros s Hs; simpl; auto.
  unfold deliver in *. simpl. rewrite IH.
  - now apply dispatch_settled.
  - rewrite dispatch_settled; auto.
Qed.

Lemma deliver_app io l k s :
  deliver io (l ++ k) s = deliver io k (deliver io l s).
Proof. apply foldl_app. Qed.

Lemma deliver_fulfilled io events s r :
  promise s = Fulfilled r -> promise (deliver io events s) = Fulfilled r.
Proof. intros Hs. rewrite deliver_settled; congruence. Qed.

(** The run over a history that goes on after the event [ev]. *)
Lemma run_split penv pre ev post layout j :
  runTypegenReflectionAsSubProcess penv (pre ++ ev :: post) layout j =
  deliver (stdio (fork_options penv layout)) post
    (dispatch (stdio (fork_options penv layout))
       (runTypegenReflectionAsSubProcess penv pre layout j) ev).
Proof.
  unfold runTypegenReflectionAsSubProcess. cbv zeta.
  rewrite deliver_app. reflexivity.
Qed.

(** The listeners only ever add [log.trace] calls to the journal. *)
Lemma dispatch_journal io s ev :
  exists rest, journal (dispatch io s ev) = journal s ++ rest
               /\ forallb is_log_trace rest = true.
Proof.
  destruct ev as [m | err | chunk | code]; simpl.
  - exists []. rewrite app_nil_r. split; auto.
    destruct m; simpl; rewrite ?resolve_journal; reflexivity.
  - eexists. unfold on_error. rewrite resolve_journal. simpl. split; eauto.
  - destruct io.
    + exists []. rewrite app_nil_r. auto.
    + eexists. unfold on_stderr_data. rewrite resolve_journal. simpl. split; eauto.
  - unfold on_exit. case_decide.
    + exists []. rewrite app_nil_r. auto.
    + eexists. rewrite resolve_journal. simpl. split; eauto.
Qed.

Lemma deliver_journal io events : forall s,
  exists rest, journal (deliver io events s) = journal s ++ rest
               /\ forallb is_log_trace rest = true.
Proof.
  induction events as [| ev events IH]; intros s.
  - exists []. simpl. rewrite app_nil_r. auto.
  - destruct (dispatch_journal io s ev) as (r1 & E1 & L1).
    destruct (IH (dispatch io s ev)) as (r2 & E2 & L2).
    exists (r1 ++ r2). split.
    + change (deliver io (ev :: events) s) with (deliver io events (dispatch io s ev)).
      rewrite E2, E1, app_assoc. reflexivity.
    + rewrite forallb_app, L1, L2. reflexivity.
Qed.

Lemma dispatch_quiet io s ev : settles io ev = false -> dispatch io s ev = s.
Proof.
  destruct ev as [[ | | ] | | | code]; simpl; try discriminate; try reflexivity.
  - destruct io; [reflexivity | discriminate].
  - unfold on_exit. case_bool_decide; [| discriminate]. case_decide; congruence.
Qed.

Lemma dispatch_settles io s ev :
  settles io ev = true -> promise s = Pending -> promise (dispatch io s ev) <> Pending.
Proof.
  intros Hev Hs.
  destruct ev as [[ | | ] | | | code]; simpl in *; try discriminate;
    unfold on_error, on_stderr_data, on_exit.
  - rewrite resolve_pending; [discriminate | exact Hs].
  - rewrite resolve_pending; [discriminate | exact Hs].
  - rewrite resolve_pending; [discriminate | exact Hs].
  - destruct io; [discriminate |]. rewrite resolve_pending; [discriminate | exact Hs].
  - case_bool_decide; [discriminate |]. case_decide; [congruence |].
    rewrite resolve_pending; [discriminate | exact Hs].
Qed.

Lemma deliver_quiet io events : forall s,
  Forall (fun ev => settles io ev = false) events -> deliver io events s = s.
Proof.
  induction events as [| ev events IH]; intros s H; [reflexivity |].
  inversion H; subst.
  change (deliver io (ev :: events) s) with (deliver io events (dispatch io s ev)).
  rewrite dispatch_quiet; auto.
Qed.

(** The promise is pending after a history exactly when none of its
    events made a listener call [resolve]. *)
Lemma deliver_pending_iff io events : forall s,
  promise s = Pending ->
  promise (deliver io events s) = Pending <->
  Forall (fun ev => settles io ev = false) events.
Proof.
  induction events as [| ev events IH]; intros s Hs.
  - split; [constructor | intros _; exact Hs].
  - change (deliver io (ev :: events) s) with (deliver io events (dispatch io s ev)).
    destruct (settles io ev) eqn:Hev.
    + split.
      * intros H. exfalso.
        rewrite deliver_settled in H; [| now apply dispatch_settles].
        revert H. now apply dispatch_settles.
      * intros H. inversion H; congruence.
    + rewrite dispatch_quiet by exact Hev. rewrite (IH s Hs). split.
      * now constructor.
      * intros H. now inversion H.
Qed.

(** ** The subprocess run *)

(** C1, as amended: when the subprocess sends exactly one message and
    the promise is still pending when that message arrives (no ['error']
    event, no chunk on a piped stderr and no exit with a code other than 0
    came first), the promise is fulfilled with [{ success: true }] for a
    [success-typegen] message and with [{ success: false, error }], the
    error deserialized, for an [error] message, whatever follows. *)
Theorem terminal_message_resolves penv pre m post layout j :
  messages_of (pre ++ OnMessage m :: post) = [m] ->
  promise (runTypegenReflectionAsSubProcess penv pre layout j) = Pending ->
  (message_type m = "success-typegen" ->
   promise (runTypegenReflectionAsSubProcess penv (pre ++ OnMessage m :: post) layout j)
   = Fulfilled Success) /\
  (forall serializedError, m = ErrorMessage serializedError ->
   promise (runTypegenReflectionAsSubProcess penv (pre ++ OnMessage m :: post) layout j)
   = Fulfilled (Failure (deserializeError serializedError))).
Proof.
  intros _ Hpre. rewrite run_split. split.
  - intros Hty. destruct m; try discriminate Hty.
    apply deliver_fulfilled. simpl. now apply resolve_pending.
  - intros e ->. apply deliver_fulfilled. simpl. now apply resolve_pending.
Qed.

(** C5: an exit with a code other than 0 (or with no code) that finds
    the promise pending fulfils it with [{ success: false, error }]; the
    message of the error is the text of the template around the code in
    decimal between double quotes ([null] when there is no code).  The
    listener does nothing at all on an exit with code 0, so that a
    pending promise stays pending. *)
Theorem exit_code_resolves :
  (forall penv pre code post layout j,
     code <> Some 0%Z ->
     promise (runTypegenReflectionAsSubProcess penv pre layout j) = Pending ->
     promise (runTypegenReflectionAsSubProcess penv (pre ++ OnExit code :: post) layout j)
     = Fulfilled
         (Failure
            (mkError "Error"
               (newline +:+ "        Runner failed with exit code " +:+ double_quote
                +:+ match code with
                    | Some n => pretty n
                    | None => "null"
                    end
                +:+ double_quote +:+ "." +:+ newline +:+ "      ")))) /\
  (forall s, on_exit (Some 0%Z) s = s) /\
  (forall penv pre layout j,
     promise (runTypegenReflectionAsSubProcess penv pre layout j) = Pending ->
     promise (runTypegenReflectionAsSubProcess penv (pre ++ [OnExit (Some 0%Z)]) layout j)
     = Pending).
Proof.
  split; [| split].
  - intros penv pre code post layout j Hcode Hpre.
    rewrite run_split. apply deliver_fulfilled. simpl. unfold on_exit.
    case_decide; [congruence |]. now apply resolve_pending.
  - intros s. reflexivity.
  - intros penv pre layout j Hpre. rewrite run_split. exact Hpre.
Qed.

(** C6: the child is forked from [fork-script.js] beside the module,
    with no arguments, in [layout.projectRoot], and it is the only fork of
    the call; a variable of its environment is the one of the ['typegen']
    stage when the stage sets it, else the serialized [layout.data] for
    [NEXUS_REFLECTION_LAYOUT], else what [process.env] holds. *)
Theorem fork_spawn penv child layout j :
  exists rest,
    journal (runTypegenReflectionAsSubProcess penv child layout j)
    = j ++ Fork (Path_join __dirname "fork-script.js") [] (fork_options penv layout) :: rest
    /\ forallb is_log_trace rest = true
    /\ cwd (fork_options penv layout) = projectRoot layout
    /\ forall k,
         env (fork_options penv layout) !! k =
         match getReflectionStageEnv StageTypegen !! k with
         | Some v => Some v
         | None =>
             if decide (k = "NEXUS_REFLECTION_LAYOUT")
             then Some (JSON_stringify (data layout))
             else penv !! k
         end.
Proof.
  unfold runTypegenReflectionAsSubProcess. cbv zeta.
  match goal with |- context [deliver ?io child ?s] =>
    destruct (deliver_journal io child s) as (rest & E & L) end.
  exists rest. simpl in E. rewrite <- app_assoc in E. simpl in E.
  split; [exact E |]. split; [exact L |]. split; [reflexivity |].
  intros k. simpl. unfold spread.
  destruct (getReflectionStageEnv StageTypegen !! k) as [v |] eqn:Hk.
  - now apply lookup_union_Some_l.
  - rewrite lookup_union_r by exact Hk. case_decide as Hd.
    + subst k. apply lookup_insert_eq.
    + apply lookup_insert_ne. congruence.
Qed.

(** C9, as amended: with [process.env.DEBUG] unset, a chunk on the
    child's stderr that finds the promise pending fulfils it with
    [{ success: false, error }], the error built from the chunk, and
    neither a later success message nor a later exit changes that. *)
Theorem stderr_data_resolves penv pre chunk post layout j :
  penv !! "DEBUG" = None ->
  promise (runTypegenReflectionAsSubProcess penv pre layout j) = Pending ->
  promise (runTypegenReflectionAsSubProcess penv (pre ++ OnStderrData chunk :: post) layout j)
  = Fulfilled (Failure (new_Error chunk)).
Proof.
  intros Hdebug Hpre. rewrite run_split. apply deliver_fulfilled.
  simpl. rewrite Hdebug. simpl. unfold on_stderr_data.
  apply resolve_pending. exact Hpre.
Qed.

(** C10: when the child's only message is a [success-plugin] one, no
    ['error'] event and no stderr chunk occurs and the child exits with
    code 0, the promise is pending after every event of the run and at
    its end: it never settles. *)
Theorem success_plugin_never_resolves penv child plugins layout j :
  messages_of child = [SuccessPlugin plugins] ->
  spawn_errors_of child = [] ->
  stderr_of child = [] ->
  exit_codes_of child = [Some 0%Z] ->
  promise (runTypegenReflectionAsSubProcess penv child layout j) = Pending /\
  forall n, promise (runTypegenReflectionAsSubProcess penv (take n child) layout j) = Pending.
Proof.
  intros Hm He Hd Hx.
  assert (Hq : forall io, Forall (fun ev => settles io ev = false) child).
  { intros io. apply Forall_forall. intros ev Hin.
    destruct ev as [m | err | chunk | code].
    - assert (Hmem : m ∈ messages_of child)
        by (apply list_elem_of_omap; exists (OnMessage m); auto).
      rewrite Hm in Hmem. apply list_elem_of_singleton in Hmem. now subst m.
    - assert (Hmem : err ∈ spawn_errors_of child)
        by (apply list_elem_of_omap; exists (OnError err); auto).
      rewrite He in Hmem. inversion Hmem.
    - assert (Hmem : chunk ∈ stderr_of child)
        by (apply list_elem_of_omap; exists (OnStderrData chunk); auto).
      rewrite Hd in Hmem. inversion Hmem.
    - assert (Hmem : code ∈ exit_codes_of child)
        by (apply list_elem_of_omap; exists (OnExit code); auto).
      rewrite Hx in Hmem. apply list_elem_of_singleton in Hmem. now subst code. }
  unfold runTypegenReflectionAsSubProcess. cbv zeta. split.
  - rewrite deliver_quiet; auto.
  - intros n. rewrite deliver_quiet; auto. now apply Forall_take.
Qed.

(** C7: a message is of exactly one of three shapes, [success-plugin]
    with a list of plugins, [success-typegen] with nothing, [error] with a
    serialized error, and the three [type] tags differ. *)
Theorem message_shapes (m : Message) :
  ((exists plugins, m = SuccessPlugin plugins /\ message_type m = "success-plugin") \/
   (m = SuccessTypegen /\ message_type m = "success-typegen") \/
   (exists serializedError, m = ErrorMessage serializedError /\ message_type m = "error")) /\
  NoDup ["success-plugin"; "success-typegen"; "error"].
Proof.
  split.
  - destruct m; eauto.
  - compute_done.
Qed.

(** ** The main-thread run *)

(** C8: [removeReflectionStage] is called on the success path only.
    When [appRunner.start()] throws, the call answers
    [{ success: false, error }] with the thrown error, its last stage call
    is [setReflectionStage('plugin')] and the stage is still ['plugin']
    afterwards; when the start-up succeeds the stage is removed. *)
Theorem stage_left_set_on_error layout j :
  (forall error,
     start (createDevAppRunner layout app_default {| catchUnhandledErrors := false |})
     = Threw error ->
     promise (runPluginsReflectionOnMainThread layout j) = Fulfilled (Failure error) /\
     journal (runPluginsReflectionOnMainThread layout j)
     = j ++ [SetReflectionStage StagePlugin; AppRunnerStart] /\
     reflection_stage (journal (runPluginsReflectionOnMainThread layout j))
     = Some StagePlugin) /\
  (forall app,
     start (createDevAppRunner layout app_default {| catchUnhandledErrors := false |})
     = Started app ->
     journal (runPluginsReflectionOnMainThread layout j)
     = j ++ [SetReflectionStage StagePlugin; AppRunnerStart; RemoveReflectionStage] /\
     reflection_stage (journal (runPluginsReflectionOnMainThread layout j)) = None).
Proof.
  unfold runPluginsReflectionOnMainThread, reflection_stage. cbv zeta.
  split; intros x Hstart; rewrite Hstart; simpl;
    rewrite <- !app_assoc; simpl; rewrite ?foldl_app; auto.
Qed.

(** ** The entry point *)

(** C3: with [artifacts: true], whatever the two other options are,
    [reflect] is the subprocess run: after its trace line the call makes
    one fork of [fork-script.js] and, from then on, only trace lines (the
    application is not started in the calling process). *)
Theorem artifacts_runs_subprocess w layout j used main :
  let opts := {| usedPlugins := used; artifacts := true; onMainThread := main |} in
  reflect w layout opts j
  = runTypegenReflectionAsSubProcess (process_env w) (child_events w) layout
      (j ++ [LogTrace "reflection started" NoContext]) /\
  exists rest,
    journal (reflect w layout opts j)
    = j ++ LogTrace "reflection started" NoContext
        :: Fork (Path_join __dirname "fork-script.js") []
             (fork_options (process_env w) layout)
        :: rest
    /\ forallb is_log_trace rest = true.
Proof.
  cbv zeta. split; [reflexivity |].
  unfold reflect, runTypegenReflectionAsSubProcess. simpl.
  match goal with |- context [deliver ?io ?evs ?s] =>
    destruct (deliver_journal io evs s) as (rest & E & L) end.
  exists rest. rewrite E. simpl. rewrite <- !app_assoc. auto.
Qed.

(** C4: with [usedPlugins: true], [onMainThread: true] and no
    [artifacts], [reflect] is the main-thread run: it sets the ['plugin']
    stage and starts the application in the calling process, without any
    fork, and when the start-up succeeds it answers
    [{ success: true, plugins }] with the plugins of the application's
    private state. *)
Theorem plugins_reflection_on_main_thread w layout j :
  let opts := {| usedPlugins := true; artifacts := false; onMainThread := Some true |} in
  reflect w layout opts j
  = runPluginsReflectionOnMainThread layout (j ++ [LogTrace "reflection started" NoContext]) /\
  (exists rest,
     journal (reflect w layout opts j)
     = j ++ [LogTrace "reflection started" NoContext;
             SetReflectionStage StagePlugin; AppRunnerStart] ++ rest
     /\ existsb is_fork rest = false) /\
  (forall app,
     start (createDevAppRunner layout app_default {| catchUnhandledErrors := false |})
     = Started app ->
     promise (reflect w layout opts j)
     = Fulfilled (SuccessWithPlugins (private_state_plugins app))).
Proof.
  cbv zeta. split; [reflexivity |].
  unfold reflect, runPluginsReflectionOnMainThread. simpl. split.
  - destruct (start _);
      [exists [RemoveReflectionStage] | exists [] | exists []];
      simpl; rewrite <- !app_assoc; auto.
  - intros app ->. reflexivity.
Qed.

Lemma not_rejected_tagged (p : Promise ReflectionResult) :
  (forall e, p <> Rejected e) -> tagged_or_pending p.
Proof.
  intros Hp. destruct p as [| r | e].
  - now left.
  - right. exists r. split; [reflexivity |]. destruct r as [e | ps |].
    + left. eauto.
    + right. eauto.
    + right. eauto.
  - now destruct (Hp e).
Qed.

(** No listener rejects: [resolve] is their only handle on the promise. *)
Lemma dispatch_not_rejected io s ev :
  (forall e, promise s <> Rejected e) ->
  forall e, promise (dispatch io s ev) <> Rejected e.
Proof.
  intros Hs e. destruct (promise s) as [| r | e'] eqn:Es.
  - destruct ev as [[ | | ] | | chunk | code]; simpl;
      unfold on_error, on_stderr_data, on_exit;
      try destruct io; try case_decide;
      rewrite ?resolve_pending, ?Es; auto; discriminate.
  - rewrite dispatch_settled, Es; [discriminate | rewrite Es; discriminate].
  - now destruct (Hs e').
Qed.

Lemma deliver_not_rejected io events : forall s,
  (forall e, promise s <> Rejected e) ->
  forall e, promise (deliver io events s) <> Rejected e.
Proof.
  induction events as [| ev events IH]; intros s Hs; [exact Hs |].
  change (deliver io (ev :: events) s) with (deliver io events (dispatch io s ev)).
  apply IH. now apply dispatch_not_rejected.
Qed.

Lemma run_not_rejected penv child layout j e :
  promise (runTypegenReflectionAsSubProcess penv child layout j) <> Rejected e.
Proof.
  unfold runTypegenReflectionAsSubProcess. cbv zeta.
  apply deliver_not_rejected. simpl. discriminate.
Qed.

(** C2, as amended: the promise of [reflect] is rejected in two cases
    only.  When one of the calls that [reflect] makes outside any [try]
    throws ([log.trace], then for artifacts [Path.join],
    [JSON.stringify], [getReflectionStageEnv] and [fork], for plugins
    [require], [createDevAppRunner] and [setReflectionStage]), it is
    rejected with what the first of them threw.  When they return and the
    options are [usedPlugins: true] with [onMainThread: false] and no
    [artifacts], it is rejected with the "Not implemented" error.
    Otherwise it is never rejected: it is pending or fulfilled with a
    result tagged [success: false] (and an error) or [success: true]. *)
Theorem reflect_result x w layout opts j :
  match first_throw x (unguarded_calls opts) with
  | Some thrown => promise (reflect_or_throw x w layout opts j) = Rejected thrown
  | None =>
      if refused opts
      then promise (reflect_or_throw x w layout opts j)
           = Rejected (new_Error not_implemented)
      else tagged_or_pending (promise (reflect_or_throw x w layout opts j))
  end.
Proof.
  unfold reflect_or_throw, unguarded_calls, first_throw, refused, attempt.
  simpl. destruct (x CallLogTrace); simpl; [reflexivity |].
  destruct (artifacts opts); simpl.
  - unfold runTypegenReflectionAsSubProcess_or_throw, attempt.
    destruct (x CallPathJoin); simpl; [reflexivity |].
    destruct (x CallJSONStringify); simpl; [reflexivity |].
    destruct (x CallGetReflectionStageEnv); simpl; [reflexivity |].
    destruct (x CallFork); simpl; [reflexivity |].
    apply not_rejected_tagged. intros e. apply run_not_rejected.
  - destruct (usedPlugins opts && bool_decide (onMainThread opts = Some false)); simpl;
      [reflexivity |].
    unfold runPluginsReflectionOnMainThread_or_throw, attempt.
    destruct (x CallRequire); simpl; [reflexivity |].
    destruct (x CallCreateDevAppRunner); simpl; [reflexivity |].
    destruct (x CallSetReflectionStage); simpl; [reflexivity |].
    apply not_rejected_tagged. intros e.
    unfold runPluginsReflectionOnMainThread. cbv zeta.
    destruct (start _); destruct (x CallRemoveReflectionStage); discriminate.
Qed.

(** When no call throws, the functions are the ones studied above. *)
Lemma reflect_or_throw_returns x w layout opts j :
  (forall site, x site = None) ->
  reflect_or_throw x w layout opts j = reflect w layout opts j.
Proof.
  intros Hx.
  unfold reflect_or_throw, runTypegenReflectionAsSubProcess_or_throw,
    runPluginsReflectionOnMainThread_or_throw, reflect, attempt.
  rewrite !Hx. cbv zeta.
  destruct (artifacts opts); [reflexivity |].
  destruct (usedPlugins opts && bool_decide (onMainThread opts = Some false));
    [reflexivity |].
  destruct (start _); reflexivity.
Qed.

(** ** More on the subprocess run *)

Lemma dispatch_answer io s ev :
  promise s = Pending ->
  promise (dispatch io s ev)
  = match answer io ev with Some r => Fulfilled r | None => Pending end.
Proof.
  intros Hs.
  destruct ev as [[ | | ] | err | chunk | code]; simpl;
    unfold on_error, on_stderr_data, on_exit;
    try destruct io; try case_decide;
    rewrite ?resolve_pending; auto.
Qed.

Lemma deliver_first_answer io events : forall s,
  promise s = Pending ->
  promise (deliver io events s)
  = match head (omap (answer io) events) with
    | Some r => Fulfilled r
    | None => Pending
    end.
Proof.
  induction events as [| ev events IH]; intros s Hs; [exact Hs |].
  change (deliver io (ev :: events) s) with (deliver io events (dispatch io s ev)).
  pose proof (dispatch_answer io s ev Hs) as Hev. simpl.
  destruct (answer io ev) as [r |].
  - simpl. now apply deliver_fulfilled.
  - now apply IH.
Qed.

Lemma dispatch_traced io s ev :
  journal (dispatch io s ev) = journal s ++ option_list (traced io ev).
Proof.
  destruct ev as [[ | | ] | err | chunk | code]; simpl;
    unfold on_error, on_stderr_data, on_exit;
    try destruct io; try case_decide;
    rewrite ?resolve_journal; simpl; rewrite ?app_nil_r; reflexivity.
Qed.

Lemma deliver_traced io events : forall s,
  journal (deliver io events s) = journal s ++ omap (traced io) events.
Proof.
  induction events as [| ev events IH]; intros s.
  - simpl. now rewrite app_nil_r.
  - change (deliver io (ev :: events) s) with (deliver io events (dispatch io s ev)).
    rewrite IH, dispatch_traced, <- app_assoc. simpl.
    destruct (traced io ev); reflexivity.
Qed.

Lemma stage_of_traces (rest : list Effect) : forall st,
  forallb (fun e => is_log_trace e || is_fork e) rest = true ->
  foldl stage_step st rest = st.
Proof.
  induction rest as [| e rest IH]; intros st H; [reflexivity |].
  simpl in H. apply andb_prop in H as [He Hrest].
  simpl. destruct e; try discriminate He; now apply IH.
Qed.

Lemma traced_is_log_trace io events :
  forallb (fun e => is_log_trace e || is_fork e) (omap (traced io) events) = true.
Proof.
  induction events as [| ev events IH]; [reflexivity |].
  simpl. destruct ev as [m | err | chunk | code]; simpl; auto.
  - destruct io; simpl; auto.
  - case_decide; simpl; auto.
Qed.

(** X1: the promise of the subprocess run is decided by the first
    event of the child that a listener answers with [resolve]: it holds
    the result handed over on that event, and it is pending when the
    history has no such event. *)
Theorem first_answer_decides penv child layout j :
  promise (runTypegenReflectionAsSubProcess penv child layout j)
  = match head (omap (answer (stdio (fork_options penv layout))) child) with
    | Some r => Fulfilled r
    | None => Pending
    end.
Proof.
  unfold runTypegenReflectionAsSubProcess. cbv zeta.
  now apply deliver_first_answer.
Qed.

(** X2: an ['error'] event of the child process that finds the promise
    pending fulfils it with [{ success: false, error }], the error being
    the very one of the event, and nothing that follows changes that. *)
Theorem spawn_error_resolves penv pre err post layout j :
  promise (runTypegenReflectionAsSubProcess penv pre layout j) = Pending ->
  promise (runTypegenReflectionAsSubProcess penv (pre ++ OnError err :: post) layout j)
  = Fulfilled (Failure err).
Proof.
  intros Hpre. rewrite run_split. apply deliver_fulfilled.
  simpl. unfold on_error. now apply resolve_pending.
Qed.

(** X3: the first result is final.  Once the promise is fulfilled
    after a part of the child's history, no further message, error,
    stderr chunk or exit changes what it holds. *)
Theorem fulfilled_is_final penv pre post layout j r :
  promise (runTypegenReflectionAsSubProcess penv pre layout j) = Fulfilled r ->
  promise (runTypegenReflectionAsSubProcess penv (pre ++ post) layout j) = Fulfilled r.
Proof.
  unfold runTypegenReflectionAsSubProcess. cbv zeta. intros Hpre.
  rewrite deliver_app. now apply deliver_fulfilled.
Qed.

(** X4: the events that no listener answers ([success-plugin]
    messages, exits with code 0, stderr chunks when stderr is not piped)
    leave no mark at all: without them the run has the same promise and
    the same journal. *)
Theorem unanswered_events_leave_no_mark penv child layout j :
  runTypegenReflectionAsSubProcess penv
    (filter (fun ev => settles (stdio (fork_options penv layout)) ev = true) child)
    layout j
  = runTypegenReflectionAsSubProcess penv child layout j.
Proof.
  unfold runTypegenReflectionAsSubProcess. cbv zeta.
  generalize ({| promise := Pending;
                 journal := j ++ [Fork (Path_join __dirname "fork-script.js") []
                                    (fork_options penv layout)] |}).
  generalize (stdio (fork_options penv layout)) as io.
  intros io. induction child as [| ev child IH]; intros s; [reflexivity |].
  change (deliver io (ev :: child) s) with (deliver io child (dispatch io s ev)).
  destruct (settles io ev) eqn:Hev.
  - rewrite filter_cons_True by exact Hev.
    change (deliver io (ev :: ?l) s) with (deliver io l (dispatch io s ev)).
    apply IH.
  - rewrite filter_cons_False by congruence.
    rewrite dispatch_quiet by exact Hev. apply IH.
Qed.

(** X5: under a truthy [DEBUG] the child is forked with
    [stdio: 'inherit'], its stderr is not piped, and what it writes there
    has no influence: the run is the same with and without the chunk,
    promise and journal alike. *)
Theorem debug_hides_stderr penv pre chunk post layout j :
  truthy (penv !! "DEBUG") = true ->
  stdio (fork_options penv layout) = Inherit /\
  (exists rest,
     journal (runTypegenReflectionAsSubProcess penv (pre ++ OnStderrData chunk :: post)
                layout j)
     = j ++ Fork (Path_join __dirname "fork-script.js") []
              (fork_options penv layout) :: rest) /\
  runTypegenReflectionAsSubProcess penv (pre ++ OnStderrData chunk :: post) layout j
  = runTypegenReflectionAsSubProcess penv (pre ++ post) layout j.
Proof.
  intros Hdebug.
  assert (Hio : stdio (fork_options penv layout) = Inherit)
    by (simpl; now rewrite Hdebug).
  split; [exact Hio |]. split.
  - unfold runTypegenReflectionAsSubProcess. cbv zeta.
    match goal with |- context [deliver ?io ?evs ?s0] =>
      destruct (deliver_journal io evs s0) as (rest & E & _) end.
    exists rest. rewrite E. simpl. rewrite <- app_assoc. reflexivity.
  - rewrite run_split.
    unfold runTypegenReflectionAsSubProcess. cbv zeta.
    rewrite deliver_app, Hio. reflexivity.
Qed.

(** X6: a [DEBUG] that is unset or the empty string is falsy: stderr
    is piped, and a chunk on it that finds the promise pending fulfils it
    with [{ success: false, error }], the error built from the chunk. *)
Theorem falsy_debug_pipes_stderr penv pre chunk post layout j :
  truthy (penv !! "DEBUG") = false ->
  promise (runTypegenReflectionAsSubProcess penv pre layout j) = Pending ->
  stdio (fork_options penv layout) = Pipe /\
  promise (runTypegenReflectionAsSubProcess penv (pre ++ OnStderrData chunk :: post) layout j)
  = Fulfilled (Failure (new_Error chunk)).
Proof.
  intros Hdebug Hpre.
  assert (Hio : stdio (fork_options penv layout) = Pipe) by (simpl; now rewrite Hdebug).
  split; [exact Hio |].
  rewrite run_split. apply deliver_fulfilled. rewrite Hio. simpl.
  unfold on_stderr_data. now apply resolve_pending.
Qed.

(** X7: the journal of the subprocess run is the fork followed by one
    trace line for every ['error'] event, every chunk on a piped stderr
    and every exit with a code other than 0, in the order of the events
    and whether or not the promise was already settled; messages and
    clean exits are not traced. *)
Theorem run_journal_traces penv child layout j :
  journal (runTypegenReflectionAsSubProcess penv child layout j)
  = j ++ Fork (Path_join __dirname "fork-script.js") [] (fork_options penv layout)
      :: omap (traced (stdio (fork_options penv layout))) child.
Proof.
  unfold runTypegenReflectionAsSubProcess. cbv zeta.
  rewrite deliver_traced. simpl. now rewrite <- app_assoc.
Qed.

Lemma run_shapes penv child layout j :
  promise (runTypegenReflectionAsSubProcess penv child layout j) = Pending \/
  promise (runTypegenReflectionAsSubProcess penv child layout j) = Fulfilled Success \/
  exists error,
    promise (runTypegenReflectionAsSubProcess penv child layout j)
    = Fulfilled (Failure error).
Proof.
  unfold runTypegenReflectionAsSubProcess. cbv zeta.
  rewrite deliver_first_answer by reflexivity.
  generalize (stdio (fork_options penv layout)) as io. intros io.
  induction child as [| ev child IH]; [now left |].
  simpl. destruct (answer io ev) as [r |] eqn:Hev; [| exact IH].
  simpl. destruct ev as [[ | | ] | err | chunk | code]; simpl in Hev.
  - discriminate.
  - injection Hev as <-. auto.
  - injection Hev as <-. eauto.
  - injection Hev as <-. eauto.
  - destruct io; [discriminate |]. injection Hev as <-. eauto.
  - case_decide; [discriminate |]. injection Hev as <-. eauto.
Qed.

(** X8: the promise of the subprocess run is rejected exactly when a
    call of its executor throws ([Path.join], [JSON.stringify],
    [getReflectionStageEnv], [fork]): it is then rejected with what the
    first of them threw, before any listener is registered.  When they
    return, the promise is pending, or holds [{ success: true }], or
    holds a failure; it never holds a list of plugins. *)
Theorem subprocess_result_shapes x penv child layout j :
  match first_throw x executor_calls with
  | Some thrown =>
      promise (runTypegenReflectionAsSubProcess_or_throw x penv child layout j)
      = Rejected thrown /\
      journal (runTypegenReflectionAsSubProcess_or_throw x penv child layout j) = j
  | None =>
      promise (runTypegenReflectionAsSubProcess_or_throw x penv child layout j) = Pending \/
      promise (runTypegenReflectionAsSubProcess_or_throw x penv child layout j)
      = Fulfilled Success \/
      exists error,
        promise (runTypegenReflectionAsSubProcess_or_throw x penv child layout j)
        = Fulfilled (Failure error)
  end.
Proof.
  unfold runTypegenReflectionAsSubProcess_or_throw, first_throw, executor_calls, attempt.
  simpl.
  destruct (x CallPathJoin); simpl; [auto |].
  destruct (x CallJSONStringify); simpl; [auto |].
  destruct (x CallGetReflectionStageEnv); simpl; [auto |].
  destruct (x CallFork); simpl; [auto |].
  apply run_shapes.
Qed.

(** X9: the subprocess run leaves the reflection stage of the calling
    process as it found it: the stage goes to the child through its
    environment, and neither stage setter is called. *)
Theorem subprocess_keeps_stage penv child layout j :
  reflection_stage (journal (runTypegenReflectionAsSubProcess penv child layout j))
  = reflection_stage j.
Proof.
  unfold runTypegenReflectionAsSubProcess, reflection_stage. cbv zeta.
  rewrite deliver_traced. simpl. rewrite <- app_assoc, foldl_app.
  apply stage_of_traces. simpl. apply traced_is_log_trace.
Qed.

(** ** More on the entry point *)

(** X10: without [usedPlugins] the option [onMainThread] is not
    looked at: with no [artifacts] either, [reflect] runs the plugin
    reflection on the main thread even when [onMainThread] is [false],
    whatever [process.env] and the child would be. *)
Theorem onMainThread_ignored_without_usedPlugins w layout j main :
  let opts := {| usedPlugins := false; artifacts := false; onMainThread := main |} in
  reflect w layout opts j
  = runPluginsReflectionOnMainThread layout
      (j ++ [LogTrace "reflection started" NoContext]) /\
  exists rest,
    journal (reflect w layout opts j)
    = j ++ [LogTrace "reflection started" NoContext;
            SetReflectionStage StagePlugin; AppRunnerStart] ++ rest
    /\ existsb is_fork rest = false.
Proof.
  cbv zeta. split; [reflexivity |].
  unfold reflect, runPluginsReflectionOnMainThread. simpl.
  destruct (start _);
    [exists [RemoveReflectionStage] | exists [] | exists []];
    simpl; rewrite <- !app_assoc; auto.
Qed.

(** X11: a refused call has no effect but its trace line: it is
    rejected before any fork, before the application is started and
    before the reflection stage is touched. *)
Theorem refused_reflect_has_no_effect w layout opts j :
  refused opts = true ->
  journal (reflect w layout opts j) = j ++ [LogTrace "reflection started" NoContext] /\
  reflection_stage (journal (reflect w layout opts j)) = reflection_stage j.
Proof.
  unfold refused, reflect. cbv zeta. intros H.
  destruct (artifacts opts); [discriminate |]. simpl in H. rewrite H. simpl.
  split; [reflexivity |]. unfold reflection_stage. now rewrite foldl_app.
Qed.

(** X12: a plugin reflection whose start-up threw leaves the stage
    ['plugin'] behind, and a later artifacts reflection in the same
    process does not clear it: after both calls the stage is still
    ['plugin']. *)
Theorem failed_plugin_stage_survives_artifacts_run w layout layout' j error used main :
  start (createDevAppRunner layout app_default {| catchUnhandledErrors := false |})
  = Threw error ->
  reflection_stage
    (journal
       (reflect w layout'
          {| usedPlugins := used; artifacts := true; onMainThread := main |}
          (journal (runPluginsReflectionOnMainThread layout j))))
  = Some StagePlugin.
Proof.
  intros Hstart.
  unfold reflect, runTypegenReflectionAsSubProcess, runPluginsReflectionOnMainThread,
    reflection_stage. cbv zeta. rewrite Hstart. simpl.
  rewrite deliver_traced. simpl.
  rewrite <- !app_assoc, !foldl_app. simpl.
  apply stage_of_traces, traced_is_log_trace.
Qed.

(** ** The message of the exit error *)

Lemma string_app_cons a s t : String a s +:+ t = String a (s +:+ t).
Proof. reflexivity. Qed.

Lemma string_length_app s t :
  String.length (s +:+ t) = String.length s + String.length t.
Proof.
  induction s as [| a s IH]; [reflexivity |].
  rewrite string_app_cons. simpl. now rewrite IH.
Qed.

Lemma string_app_inj_r t : forall s1 s2, s1 +:+ t = s2 +:+ t -> s1 = s2.
Proof.
  induction s1 as [| a s1 IH]; intros [| b s2] H.
  - reflexivity.
  - apply (f_equal String.length) in H.
    rewrite string_app_cons in H. simpl in H.
    rewrite !string_length_app in H. simpl in H. lia.
  - apply (f_equal String.length) in H.
    rewrite string_app_cons in H. simpl in H.
    rewrite !string_length_app in H. simpl in H. lia.
  - rewrite !string_app_cons in H. injection H as -> H. f_equal. now apply IH.
Qed.

(** The decimal of a positive number begins with a digit. *)
Lemma pretty_N_go_digit x : forall s,
  (0 < x)%N -> exists d rest, pretty_N_go x s = String (pretty_N_char d) rest.
Proof.
  induction (N.lt_wf_0 x) as [x _ IH]; intros s Hx.
  rewrite pretty_N_go_step by exact Hx.
  destruct (decide (x `div` 10 = 0)%N) as [Hz | Hz].
  - rewrite Hz, pretty_N_go_0. eauto.
  - apply IH; [apply N.div_lt; lia | now apply N.neq_0_lt_0].
Qed.

Lemma pretty_Z_not_null (n : Z) : pretty n <> "null".
Proof.
  destruct n as [| p | p]; unfold pretty, pretty_Z; [discriminate | |].
  - unfold pretty, pretty_positive, pretty, pretty_N.
    case_decide; [discriminate |].
    destruct (pretty_N_go_digit (N.pos p) "") as (d & rest & ->); [lia |].
    unfold pretty_N_char. repeat case_match; discriminate.
  - discriminate.
Qed.

Lemma show_code_inj c1 c2 : show_code c1 = show_code c2 -> c1 = c2.
Proof.
  destruct c1 as [n1 |], c2 as [n2 |]; simpl; intros H.
  - f_equal. now apply (inj pretty).
  - now destruct (pretty_Z_not_null n1).
  - now destruct (pretty_Z_not_null n2).
  - reflexivity.
Qed.

(** X13: the message of the exit error tells the exit codes apart:
    two exits give the same message only when their codes are the same,
    [null] (no code) included. *)
Theorem exit_message_inj c1 c2 : exit_message c1 = exit_message c2 -> c1 = c2.
Proof.
  unfold exit_message. intros H.
  apply (inj (String.app _)) in H. apply (inj (String.app _)) in H.
  apply (inj (String.app _)) in H.
  apply show_code_inj. eapply string_app_inj_r. exact H.
Qed.

End Reflection.

Arguments SuccessPlugin {Plugin ErrorObject} plugins.
Arguments SuccessTypegen {Plugin ErrorObject}.
Arguments ErrorMessage {Plugin ErrorObject} serializedError.
Arguments Failure {Plugin} error.
Arguments SuccessWithPlugins {Plugin} plugins.
Arguments Success {Plugin}.
Arguments OnMessage {Plugin ErrorObject} message.
Arguments OnError {Plugin ErrorObject} err.
Arguments OnStderrData {Plugin ErrorObject} err.
Arguments OnExit {Plugin ErrorObject} code.
Arguments Started {Plugin} app.
Arguments Threw {Plugin} error.
Arguments NeverSettles {Plugin}.
Arguments promise {Plugin} r.
Arguments journal {Plugin} r.
Arguments messages_of {Plugin ErrorObject} events.
Arguments tagged_or_pending {Plugin} p.

(** ** The model at work: a project in [/home/app], plugins named by
    strings, serialized errors and layout data as the strings they travel as *)

Local Abbreviation sample_run :=
  (runTypegenReflectionAsSubProcess string string string
     sample_deserializeError (fun data : string => data) sample_stage_env
     sample_join "/nexus/dist/lib/reflection").

Local Abbreviation sample_layout := {| projectRoot := "/home/app"; data := "{}" |}.

Local Abbreviation sample_reflect runner :=
  (reflect string string string
     sample_deserializeError (fun data : string => data) sample_stage_env
     sample_join "/nexus/dist/lib/reflection"
     (fun _ _ _ => {| start := runner |}) {| private_state_plugins := [] |}).

Local Abbreviation sample_reflect_or_throw runner :=
  (reflect_or_throw string string string
     sample_deserializeError (fun data : string => data) sample_stage_env
     sample_join "/nexus/dist/lib/reflection"
     (fun _ _ _ => {| start := runner |}) {| private_state_plugins := [] |}).

(** The environment handed to the child: the stage variable, the
    layout, and the parent's variables. *)
Example sample_fork_env :
  let options :=
    fork_options string (fun data : string => data) sample_stage_env
      {[ "PATH" := "/usr/bin" ]} sample_layout in
  env options !! "NEXUS_REFLECTION" = Some "typegen" /\
  env options !! "NEXUS_REFLECTION_LAYOUT" = Some "{}" /\
  env options !! "PATH" = Some "/usr/bin" /\
  env options !! "HOME" = None /\
  stdio options = Pipe /\
  cwd options = "/home/app".
Proof. repeat split; reflexivity. Qed.

(** The message of the error built on exit code 1, and on a child
    killed by a signal. *)
Example sample_exit_message :
  exit_message (Some 1%Z)
  = newline +:+ "        Runner failed with exit code " +:+ double_quote +:+ "1"
      +:+ double_quote +:+ "." +:+ newline +:+ "      " /\
  show_code None = "null" /\ show_code (Some (-2)%Z) = "-2".
Proof. repeat split; reflexivity. Qed.

(** C1 fails as stated: a warning on the piped stderr, then the one
    [success-typegen] message, then a clean exit; the promise holds the
    failure built from the warning. *)
Lemma terminal_message_after_stderr :
  messages_of (Plugin := string) (ErrorObject := string)
    [OnStderrData "warning"; OnMessage SuccessTypegen; OnExit (Some 0%Z)]
  = [SuccessTypegen] /\
  promise (sample_run ∅
             [OnStderrData "warning"; OnMessage SuccessTypegen; OnExit (Some 0%Z)]
             sample_layout [])
  = Fulfilled (Failure (new_Error "warning")).
Proof. split; reflexivity. Qed.

(** The amended C1 at work: under [DEBUG] the child's stderr is not
    piped, its output is not seen, and the message decides. *)
Lemma terminal_message_resolves_witness :
  messages_of (Plugin := string) (ErrorObject := string)
    [OnStderrData "debug output"; OnMessage SuccessTypegen; OnExit (Some 0%Z)]
  = [SuccessTypegen] /\
  promise (sample_run {[ "DEBUG" := "*" ]} [OnStderrData "debug output"] sample_layout [])
  = Pending /\
  promise (sample_run {[ "DEBUG" := "*" ]}
             [OnStderrData "debug output"; OnMessage SuccessTypegen; OnExit (Some 0%Z)]
             sample_layout [])
  = Fulfilled Success.
Proof.
  split; [reflexivity |]. split; [reflexivity |].
  apply (terminal_message_resolves string string string
           sample_deserializeError (fun data => data) sample_stage_env sample_join
           "/nexus/dist/lib/reflection" {[ "DEBUG" := "*" ]}
           [OnStderrData "debug output"] SuccessTypegen [OnExit (Some 0%Z)]
           sample_layout []); reflexivity.
Defined.

(** C5 at work: the child dies with code 1 before it says anything. *)
Lemma exit_code_resolves_witness :
  Some 1%Z <> Some 0%Z /\
  promise (sample_run ∅ [OnExit (Some 1%Z); OnStderrData "late"] sample_layout [])
  = Fulfilled
      (Failure
         (mkError "Error"
            (newline +:+ "        Runner failed with exit code " +:+ double_quote
             +:+ "1" +:+ double_quote +:+ "." +:+ newline +:+ "      "))).
Proof.
  split; [discriminate |].
  apply (proj1 (exit_code_resolves string string string
                  sample_deserializeError (fun data => data) sample_stage_env sample_join
                  "/nexus/dist/lib/reflection")
           ∅ [] (Some 1%Z) [OnStderrData "late"] sample_layout []);
    [discriminate | reflexivity].
Defined.

(** C9 fails as stated: the success message comes first, a warning on
    stderr follows; the promise keeps the success. *)
Lemma stderr_data_after_success :
  (∅ : gmap string string) !! "DEBUG" = None /\
  promise (sample_run ∅
             [OnMessage SuccessTypegen; OnStderrData "warning"; OnExit (Some 0%Z)]
             sample_layout [])
  = Fulfilled Success.
Proof. split; reflexivity. Qed.

(** The amended C9 at work: the warning comes first. *)
Lemma stderr_data_resolves_witness :
  (∅ : gmap string string) !! "DEBUG" = None /\
  promise (sample_run ∅ [] sample_layout []) = Pending /\
  promise (sample_run ∅
             [OnStderrData "warning"; OnMessage SuccessTypegen; OnExit (Some 0%Z)]
             sample_layout [])
  = Fulfilled (Failure (new_Error "warning")).
Proof.
  split; [reflexivity |]. split; [reflexivity |].
  apply (stderr_data_resolves string string string
           sample_deserializeError (fun data => data) sample_stage_env sample_join
           "/nexus/dist/lib/reflection" ∅ [] "warning"
           [OnMessage SuccessTypegen; OnExit (Some 0%Z)] sample_layout []);
    reflexivity.
Defined.

(** C10 at work: a child that reports its plugins and exits cleanly. *)
Lemma success_plugin_never_resolves_witness :
  promise (sample_run ∅
             [OnMessage (SuccessPlugin ["nexus-plugin-prisma"]); OnExit (Some 0%Z)]
             sample_layout [])
  = Pending.
Proof.
  apply (success_plugin_never_resolves string string string
           sample_deserializeError (fun data => data) sample_stage_env sample_join
           "/nexus/dist/lib/reflection" ∅
           [OnMessage (SuccessPlugin ["nexus-plugin-prisma"]); OnExit (Some 0%Z)]
           ["nexus-plugin-prisma"] sample_layout []); reflexivity.
Defined.

(** C8 at work: a start-up that throws. *)
Lemma stage_left_set_on_error_witness :
  reflection_stage
    (journal (runPluginsReflectionOnMainThread string string
                (fun _ _ _ => {| start := Threw (new_Error "boom") |})
                {| private_state_plugins := [] |} sample_layout []))
  = Some StagePlugin.
Proof.
  apply (proj1 (stage_left_set_on_error string string
                  (fun _ _ _ => {| start := Threw (new_Error "boom") |})
                  {| private_state_plugins := [] |} sample_layout [])
           (new_Error "boom") eq_refl).
Defined.

(** C4 at work: a start-up that registers one plugin. *)
Lemma plugins_reflection_on_main_thread_witness :
  promise (sample_reflect (Started {| private_state_plugins := ["nexus-plugin-prisma"] |})
             {| process_env := ∅; child_events := [] |} sample_layout
             {| usedPlugins := true; artifacts := false; onMainThread := Some true |} [])
  = Fulfilled (SuccessWithPlugins ["nexus-plugin-prisma"]).
Proof.
  apply (proj2 (proj2 (plugins_reflection_on_main_thread string string string
           sample_deserializeError (fun data => data) sample_stage_env sample_join
           "/nexus/dist/lib/reflection"
           (fun _ _ _ => {| start := Started {| private_state_plugins := ["nexus-plugin-prisma"] |} |})
           {| private_state_plugins := [] |}
           {| process_env := ∅; child_events := [] |} sample_layout []))
           {| private_state_plugins := ["nexus-plugin-prisma"] |} eq_refl).
Defined.

(** C2 fails as stated: plugins asked for off the main thread, and
    the promise is rejected; artifacts asked for from a child that only
    reports plugins, and the promise stays pending; artifacts asked for
    with a layout that [JSON.stringify] refuses, and the promise is
    rejected with what it threw. *)
Lemma reflect_not_implemented_rejects :
  promise (sample_reflect_or_throw NeverSettles (fun _ => None)
             {| process_env := ∅; child_events := [] |} sample_layout
             {| usedPlugins := true; artifacts := false; onMainThread := Some false |} [])
  = Rejected (new_Error not_implemented) /\
  promise (sample_reflect_or_throw NeverSettles (fun _ => None)
             {| process_env := ∅;
                child_events := [OnMessage (SuccessPlugin []); OnExit (Some 0%Z)] |}
             sample_layout
             {| usedPlugins := false; artifacts := true; onMainThread := None |} [])
  = Pending /\
  promise (sample_reflect_or_throw NeverSettles
             (fun site =>
                match site with
                | CallJSONStringify =>
                    Some (mkError "TypeError" "Converting circular structure to JSON")
                | _ => None
                end)
             {| process_env := ∅; child_events := [OnMessage SuccessTypegen] |}
             sample_layout
             {| usedPlugins := false; artifacts := true; onMainThread := None |} [])
  = Rejected (mkError "TypeError" "Converting circular structure to JSON").
Proof. repeat split; reflexivity. Qed.

(** The amended C2 at work: the artifacts run of a child that reports
    an error, every call returning. *)
Lemma reflect_result_witness :
  tagged_or_pending
    (promise (sample_reflect_or_throw NeverSettles (fun _ => None)
                {| process_env := ∅;
                   child_events := [OnMessage (ErrorMessage "boom"); OnExit (Some 1%Z)] |}
                sample_layout
                {| usedPlugins := false; artifacts := true; onMainThread := None |} [])).
Proof.
  exact (reflect_result string string string
           sample_deserializeError (fun data => data) sample_stage_env sample_join
           "/nexus/dist/lib/reflection"
           (fun _ _ _ => {| start := NeverSettles |}) {| private_state_plugins := [] |}
           (fun _ => None)
           {| process_env := ∅;
              child_events := [OnMessage (ErrorMessage "boom"); OnExit (Some 1%Z)] |}
           sample_layout
           {| usedPlugins := false; artifacts := true; onMainThread := None |} []).
Defined.

(** X2 at work: the fork itself fails, after a plugin report. *)
Lemma spawn_error_resolves_witness :
  promise (sample_run ∅ [OnMessage (SuccessPlugin ["nexus-plugin-prisma"])] sample_layout [])
  = Pending /\
  promise (sample_run ∅
             [OnMessage (SuccessPlugin ["nexus-plugin-prisma"]);
              OnError (mkError "Error" "spawn ENOENT"); OnExit None]
             sample_layout [])
  = Fulfilled (Failure (mkError "Error" "spawn ENOENT")).
Proof.
  split; [reflexivity |].
  apply (spawn_error_resolves string string string
           sample_deserializeError (fun data => data) sample_stage_env sample_join
           "/nexus/dist/lib/reflection" ∅
           [OnMessage (SuccessPlugin ["nexus-plugin-prisma"])]
           (mkError "Error" "spawn ENOENT") [OnExit None] sample_layout []).
  reflexivity.
Defined.

(** X3 at work: a success, then an error message and a failing exit. *)
Lemma fulfilled_is_final_witness :
  promise (sample_run ∅ [OnMessage SuccessTypegen] sample_layout []) = Fulfilled Success /\
  promise (sample_run ∅
             ([OnMessage SuccessTypegen]
              ++ [OnMessage (ErrorMessage "late"); OnExit (Some 1%Z)])
             sample_layout [])
  = Fulfilled Success.
Proof.
  split; [reflexivity |].
  apply (fulfilled_is_final string string string
           sample_deserializeError (fun data => data) sample_stage_env sample_join
           "/nexus/dist/lib/reflection" ∅ [OnMessage SuccessTypegen]
           [OnMessage (ErrorMessage "late"); OnExit (Some 1%Z)] sample_layout [] Success).
  reflexivity.
Defined.

(** X5 at work: debugging output of the child under [DEBUG=*]. *)
Lemma debug_hides_stderr_witness :
  truthy (({[ "DEBUG" := "*" ]} : gmap string string) !! "DEBUG") = true /\
  stdio (fork_options string (fun data : string => data) sample_stage_env
           {[ "DEBUG" := "*" ]} sample_layout) = Inherit /\
  sample_run {[ "DEBUG" := "*" ]}
    ([] ++ OnStderrData "nexus:reflection started" :: [OnMessage SuccessTypegen])
    sample_layout []
  = sample_run {[ "DEBUG" := "*" ]} ([] ++ [OnMessage SuccessTypegen]) sample_layout [].
Proof.
  split; [reflexivity |].
  pose proof (debug_hides_stderr string string string
           sample_deserializeError (fun data => data) sample_stage_env sample_join
           "/nexus/dist/lib/reflection" {[ "DEBUG" := "*" ]} []
           "nexus:reflection started" [OnMessage SuccessTypegen] sample_layout []
           eq_refl) as (Hio & _ & Hrun).
  split; [exact Hio | exact Hrun].
Defined.

(** X6 at work: [DEBUG=] set to the empty string. *)
Lemma falsy_debug_pipes_stderr_witness :
  truthy (({[ "DEBUG" := "" ]} : gmap string string) !! "DEBUG") = false /\
  promise (sample_run {[ "DEBUG" := "" ]}
             [OnStderrData "warning"; OnMessage SuccessTypegen] sample_layout [])
  = Fulfilled (Failure (new_Error "warning")).
Proof.
  split; [reflexivity |].
  apply (falsy_debug_pipes_stderr string string string
           sample_deserializeError (fun data => data) sample_stage_env sample_join
           "/nexus/dist/lib/reflection" {[ "DEBUG" := "" ]} []
           "warning" [OnMessage SuccessTypegen] sample_layout []); reflexivity.
Defined.

(** X11 at work: the refused options, on a journal that already holds
    a stage. *)
Lemma refused_reflect_has_no_effect_witness :
  journal (sample_reflect NeverSettles
             {| process_env := ∅; child_events := [OnMessage SuccessTypegen] |}
             sample_layout
             {| usedPlugins := true; artifacts := false; onMainThread := Some false |}
             [SetReflectionStage StageTypegen])
  = [SetReflectionStage StageTypegen; LogTrace "reflection started" NoContext].
Proof.
  apply (proj1 (refused_reflect_has_no_effect string string string
           sample_deserializeError (fun data => data) sample_stage_env sample_join
           "/nexus/dist/lib/reflection"
           (fun _ _ _ => {| start := NeverSettles |}) {| private_state_plugins := [] |}
           {| process_env := ∅; child_events := [OnMessage SuccessTypegen] |}
           sample_layout
           {| usedPlugins := true; artifacts := false; onMainThread := Some false |}
           [SetReflectionStage StageTypegen] eq_refl)).
Defined.

(** X12 at work: a start-up that throws, then a typegen run that
    succeeds. *)
Lemma failed_plugin_stage_survives_artifacts_run_witness :
  reflection_stage
    (journal
       (sample_reflect (Threw (new_Error "boom"))
          {| process_env := ∅; child_events := [OnMessage SuccessTypegen; OnExit (Some 0%Z)] |}
          sample_layout
          {| usedPlugins := false; artifacts := true; onMainThread := None |}
          (journal (runPluginsReflectionOnMainThread string string
                      (fun _ _ _ => {| start := Threw (new_Error "boom") |})
                      {| private_state_plugins := [] |} sample_layout []))))
  = Some StagePlugin.
Proof.
  apply (failed_plugin_stage_survives_artifacts_run string string string
           sample_deserializeError (fun data => data) sample_stage_env sample_join
           "/nexus/dist/lib/reflection"
           (fun _ _ _ => {| start := Threw (new_Error "boom") |})
           {| private_state_plugins := [] |}
           {| process_env := ∅; child_events := [OnMessage SuccessTypegen; OnExit (Some 0%Z)] |}
           sample_layout sample_layout [] (new_Error "boom") false None eq_refl).
Defined.

(** X13 at work: the message of exit code 137. *)
Lemma exit_message_inj_witness :
  exit_message (Some (128 + 9)%Z) = exit_message (Some 137%Z) /\
  Some (128 + 9)%Z = Some 137%Z.
Proof.
  split; [reflexivity |].
  apply (exit_message_inj (Some (128 + 9)%Z) (Some 137%Z)). reflexivity.
Defined.
